(** * psycopg: format enums and the CockroachDB test-selection marker

    A shallow embedding of [psycopg/psycopg/_enums.py] and
    [tests/fix_crdb.py], together with a model of the [VersionCheck]
    helper of [tests/utils.py] that [fix_crdb.py] imports. *)

From Stdlib Require Import ZArith NArith Ascii String Lia.
From stdpp Require Import base decidable countable gmap sets list strings pretty lexico.

Local Open Scope stdpp_scope.

(** ** Exceptions

    Python code that can raise is embedded in a small error monad. *)

Inductive exn : Type :=
  | KeyError
  | AssertionError
  | MalformedExpressionError.

Inductive result (A : Type) : Type :=
  | Ok (a : A)
  | Raise (e : exn).

Arguments Ok {A} a.
Arguments Raise {A} e.

#[global] Instance result_ret : MRet result := fun A a => Ok a.

#[global] Instance result_bind : MBind result := fun A B k r =>
  match r with
  | Ok a => k a
  | Raise e => Raise e
  end.

(** [assert b]. *)
Definition assert (b : bool) : result unit :=
  if b then Ok tt else Raise AssertionError.

(** [d[k]] on a dict. *)
Definition getitem `{Countable K} {V : Type} (d : gmap K V) (k : K) : result V :=
  match d !! k with
  | Some v => Ok v
  | None => Raise KeyError
  end.

(** ** psycopg/_enums.py *)

Module pq.

(** Modelled from the spec: the wire-format enum [pq.Format] of the [pq]
    package, whose declaration is not part of the sources at hand.  The
    two tables of [_enums.py] name its members [TEXT] and [BINARY]. *)
Inductive Format : Type :=
  | TEXT
  | BINARY.

#[global] Instance Format_eq_dec : EqDecision Format.
Proof. solve_decision. Defined.

Definition Format_to_nat (g : Format) : nat :=
  match g with TEXT => 0 | BINARY => 1 end.

Definition Format_of_nat (n : nat) : Format :=
  match n with 0 => TEXT | _ => BINARY end.

#[global] Instance Format_countable : Countable Format.
Proof.
  apply (inj_countable' Format_to_nat Format_of_nat).
  intros []; reflexivity.
Defined.

End pq.

Module PyFormat.

Inductive t : Type :=
  | AUTO
  | TEXT
  | BINARY.

(** The string value of each member ([class PyFormat(str, Enum)]). *)
Definition value (f : t) : string :=
  match f with
  | AUTO => "s"
  | TEXT => "t"
  | BINARY => "b"
  end.

#[global] Instance eq_dec : EqDecision t.
Proof. solve_decision. Defined.

Definition to_nat (f : t) : nat :=
  match f with AUTO => 0 | TEXT => 1 | BINARY => 2 end.

Definition of_nat (n : nat) : t :=
  match n with 0 => AUTO | 1 => TEXT | _ => BINARY end.

#[global] Instance countable : Countable t.
Proof.
  apply (inj_countable' to_nat of_nat).
  intros []; reflexivity.
Defined.

Definition _py2pg : gmap t pq.Format :=
  list_to_map [ (TEXT, pq.TEXT); (BINARY, pq.BINARY) ].

Definition _pg2py : gmap pq.Format t :=
  list_to_map [ (pq.TEXT, TEXT); (pq.BINARY, BINARY) ].

Definition from_pq (fmt : pq.Format) : result t := getitem _pg2py fmt.

Definition as_pq (fmt : t) : result pq.Format := getitem _py2pg fmt.

End PyFormat.

(** ** Strings

    The string operations the parser is made of. *)

(** Whether every character of [s] satisfies [p]. *)
Fixpoint all_chars (p : ascii -> bool) (s : string) : bool :=
  match s with
  | "" => true
  | String c s' => p c && all_chars p s'
  end.


(** The longest prefix of [s] whose characters satisfy [p], and the rest. *)
Fixpoint span (p : ascii -> bool) (s : string) : string * string :=
  match s with
  | "" => ("", "")
  | String c s' =>
      if p c then let '(a, b) := span p s' in (String c a, b)
      else ("", s)
  end.

(** [s.lstrip()]. *)
Fixpoint lstrip (s : string) : string :=
  match s with
  | "" => ""
  | String c s' => if Ascii.is_space c then lstrip s' else s
  end.

(** [s.rstrip()]. *)
Fixpoint rstrip (s : string) : string :=
  match s with
  | "" => ""
  | String c s' =>
      match rstrip s' with
      | "" => if Ascii.is_space c then "" else String c ""
      | r => String c r
      end
  end.

(** [s.strip()]. *)
Definition strip (s : string) : string := rstrip (lstrip s).


(** ** tests/utils.py: the [VersionCheck] helper

    [fix_crdb.py] imports [VersionCheck] from [tests/utils.py], a file that
    is not among the embedded sources.  The two modules below model the
    class from its specification and from the uses of the marker that
    [fix_crdb.py] documents. *)

Module VersionTuple.

(** Modelled from the spec: the version tuple of [tests/utils.py] (absent
    from the sources), "an ordered sequence of non-negative integers
    parsed from a dotted string". *)
Abbreviation t := (list N).

(** Modelled from the spec: the value of a decimal digit of a version
    literal. *)
Definition digit (c : ascii) : option N :=
  N.of_nat <$> Ascii.is_nat c.

(** Modelled from the spec: the value of a run of digits read in base
    ten, [acc] being the value read so far. *)
Fixpoint digits_value (acc : N) (s : string) : option N :=
  match s with
  | "" => Some acc
  | String c s' =>
      match digit c with
      | Some d => digits_value (10 * acc + d)%N s'
      | None => None
      end
  end.

(** Modelled from the spec: one component of a version literal, a
    non-negative integer written as a non-empty run of decimal digits. *)
Definition parse_int (s : string) : option N :=
  match s with
  | "" => None
  | _ => digits_value 0 s
  end.

(** Modelled from the spec: the components of a literal, "separated by
    dots", as [s.split(".")] gives them. *)
Fixpoint split_dots (s : string) : list string :=
  match s with
  | "" => [""]
  | String c s' =>
      if Ascii.eqb c "." then "" :: split_dots s'
      else match split_dots s' with
           | h :: r => String c h :: r
           | [] => [String c ""]
           end
  end.

(** Modelled from the spec: parsing of a dotted version literal,
    ["21.2.10"] giving [(21, 2, 10)]; [None] when the literal is not made
    of non-negative integers separated by dots. *)
Definition of_string (s : string) : option t :=
  mapM parse_int (split_dots s).







(** Modelled from the spec: "pads the shorter with trailing zeros". *)
Definition pad (n : nat) (v : t) : t :=
  v ++ replicate (n - length v) 0%N.

(** Modelled from the spec: "lexicographic integer-tuple ordering", the
    way Python compares tuples. *)
Fixpoint lex_compare (a b : t) : comparison :=
  match a, b with
  | [], [] => Eq
  | [], _ :: _ => Lt
  | _ :: _, [] => Gt
  | x :: a', y :: b' =>
      match (x ?= y)%N with
      | Eq => lex_compare a' b'
      | c => c
      end
  end.

(** Modelled from the spec: comparison of two version tuples, "standard
    lexicographic integer-tuple ordering after zero-padding to equal
    length". *)
Definition compare (a b : t) : comparison :=
  let n := max (length a) (length b) in
  lex_compare (pad n a) (pad n b).

(** The numeric content of a version: the version without its trailing
    zero components. *)
Fixpoint strip_zeros (v : t) : t :=
  match v with
  | [] => []
  | x :: v' =>
      match strip_zeros v' with
      | [] => if (x =? 0)%N then [] else [x]
      | r => x :: r
      end
  end.

End VersionTuple.

Module VersionCheck.

(** Modelled from the spec: the qualifier of a predicate, [Only] or
    [Skip] (the class is absent from the sources). *)
Inductive Qualifier : Type :=
  | Only
  | Skip.

(** Modelled from the spec: the six comparison operators. *)
Inductive Operator : Type :=
  | OpLt
  | OpLe
  | OpGt
  | OpGe
  | OpEq
  | OpNe.

(** Modelled from the spec: the parsed predicate, a qualifier with an
    optional operator and an optional boundary. *)
Record ParsedPredicate : Type := {
  qualifier : Qualifier;
  operator : option Operator;
  boundary : option VersionTuple.t
}.

(** Modelled from the spec: a version check, the predicate and the flavor
    it talks about. *)
Record t : Type := {
  predicate : ParsedPredicate;
  whose : string
}.

(** [pred.whose = name], the assignment [check_crdb_version] makes. *)
Definition set_whose (vc : t) (name : string) : t :=
  {| predicate := predicate vc; whose := name |}.

(** *** The expression parser *)

(** Modelled from the spec: the characters of the six operators. *)
Definition is_op_char (c : ascii) : bool :=
  match c with
  | "<" | ">" | "=" | "!" => true
  | _ => false
  end%char.

(** Modelled from the spec: a character that can belong to the leading
    token, neither blank nor part of an operator. *)
Definition is_word_char (c : ascii) : bool :=
  negb (Ascii.is_space c || is_op_char c).

(** Modelled from the spec: "the qualifier token must be exactly [only]
    or [skip] (case-sensitive)". *)
Definition qualifier_of_token (tok : string) : option Qualifier :=
  if String.eqb tok "only" then Some Only
  else if String.eqb tok "skip" then Some Skip
  else None.

(** Modelled from the spec: the operators recognized, [<], [<=], [>],
    [>=], [==] and [!=]. *)
Definition operator_of_token (tok : string) : option Operator :=
  if String.eqb tok "<" then Some OpLt
  else if String.eqb tok "<=" then Some OpLe
  else if String.eqb tok ">" then Some OpGt
  else if String.eqb tok ">=" then Some OpGe
  else if String.eqb tok "==" then Some OpEq
  else if String.eqb tok "!=" then Some OpNe
  else None.

(** Modelled from the spec: the leading token of an expression, its
    first run of word characters after the leading blanks. *)
Definition leading_token (expr : string) : string :=
  (span is_word_char (lstrip expr)).1.

(** Modelled from the spec: the comparison clause, what follows the
    leading token, without the blanks around it. *)
Definition clause (expr : string) : string :=
  strip (span is_word_char (lstrip expr)).2.

(** Modelled from the spec: the operator of the clause, its first run of
    operator characters. *)
Definition operator_token (expr : string) : string :=
  (span is_op_char (clause expr)).1.

(** Modelled from the spec: the version literal of the clause, what
    follows its operator. *)
Definition literal_token (expr : string) : string :=
  lstrip (span is_op_char (clause expr)).2.

(** Modelled from the spec: the qualifier an expression states.  A
    leading token that is present must be exactly [only] or [skip].  An
    absent one stands for [only]: the empty expression defaults to
    ["only"], and [fix_crdb.py] documents an expression without qualifier
    as accepted, in the help text of the marker (['>= 21.2.10'],
    ['< 22.1']) and in the docstring of [check_crdb_version], where
    [">= 21.1"] is the "same as" ["only >= 21.1"]. *)
Definition qualifier_of_expr (expr : string) : option Qualifier :=
  match leading_token expr with
  | "" => Some Only
  | tok => qualifier_of_token tok
  end.

(** Modelled from the spec: [parse] of the expression parser (absent from
    the sources).  The expression is split into a leading qualifier token
    and an optional comparison clause, blanks around tokens being
    insignificant; without qualifier token the qualifier defaults to
    [only]; the clause is an operator followed by a dotted version
    literal. *)
Definition parse_predicate (expr : string) : result ParsedPredicate :=
  match qualifier_of_expr expr with
  | None => Raise MalformedExpressionError
  | Some q =>
      match clause expr with
      | "" => Ok {| qualifier := q; operator := None; boundary := None |}
      | _ =>
          match operator_of_token (operator_token expr) with
          | None => Raise MalformedExpressionError
          | Some op =>
              match VersionTuple.of_string (literal_token expr) with
              | None => Raise MalformedExpressionError
              | Some v =>
                  Ok {| qualifier := q; operator := Some op;
                        boundary := Some v |}
              end
          end
      end
  end.

(** *** The grammar of expressions

    The three ways an expression can break the grammar, and the grammar
    itself as a relation between expressions and predicates. *)







(** Modelled from the spec: [VersionCheck.parse], building the check from
    an expression.  The spec does not say what [whose] holds before the
    caller assigns it; the model leaves it empty. *)
Definition parse (expr : string) : result t :=
  pred ← parse_predicate expr;
  mret {| predicate := pred; whose := "" |}.

(** *** Evaluation *)

(** Modelled from the spec: whether [actual op boundary] holds, by the
    comparison of version tuples. *)
Definition holds (op : Operator) (actual bound : VersionTuple.t) : bool :=
  match op, VersionTuple.compare actual bound with
  | OpLt, Lt => true
  | OpLe, (Lt | Eq) => true
  | OpGt, Gt => true
  | OpGe, (Gt | Eq) => true
  | OpEq, Eq => true
  | OpNe, (Lt | Gt) => true
  | _, _ => false
  end.

(** Modelled from the spec: "comparison-match" is true when no operator
    is present or when the comparison against the actual version holds;
    an unavailable actual version is treated as matching. *)
Definition comparison_matches
    (p : ParsedPredicate) (actual_version : option VersionTuple.t) : bool :=
  match operator p, boundary p, actual_version with
  | Some op, Some b, Some v => holds op v b
  | _, _, _ => true
  end.

Section Evaluation.

(** Whether the server under test is the named flavor, supplied by the
    context of the call. *)
Context (is_named_flavor : bool).

(** Modelled from the spec: [get_skip_message], the decision table of
    qualifier, flavor and comparison. *)
Definition get_skip_message
    (vc : t) (actual_version : option VersionTuple.t) : option string :=
  match qualifier (predicate vc), is_named_flavor with
  | Only, false => Some ("test is specific to " +:+ whose vc)
  | Only, true =>
      if comparison_matches (predicate vc) actual_version then None
      else Some (whose vc +:+ " version mismatch")
  | Skip, false => None
  | Skip, true =>
      if comparison_matches (predicate vc) actual_version
      then Some ("not supported on " +:+ whose vc +:+ " matching this predicate")
      else None
  end.

End Evaluation.

End VersionCheck.

(** ** tests/fix_crdb.py *)

Module fix_crdb.

(** mapping from reason description to ticket number *)
Definition _crdb_reasons_items : list (string * Z) :=
  [
    ("2-phase commit", 22329);
    ("backend pid", 35897);
    ("batch statements", 44803);
    ("binary decimal", 82492);
    ("cancel", 41335);
    ("cast adds tz", 51692);
    ("cidr", 18846);
    ("composite", 27792);
    ("copy canceled", 81559);
    ("copy", 41608);
    ("cursor with hold", 77101);
    ("deferrable", 48307);
    ("do", 17511);
    ("encoding", 35882);
    ("geometric types", 21286);
    ("hstore", 41284);
    ("infinity date", 41564);
    ("interval style", 35807);
    ("json array", 23468);
    ("large objects", 243);
    ("negative interval", 81577);
    ("nested array", 32552);
    ("notify", 41522);
    ("password_encryption", 42519);
    ("pg_terminate_backend", 35897);
    ("range", 41282);
    ("severity_nonlocalized", 81794);
    ("scroll cursor", 77102);
    ("server-side cursor", 41412);
    ("stored procedure", 1751)
  ]%Z.

Definition _crdb_reasons : gmap string Z :=
  list_to_map _crdb_reasons_items.

(** The prefix of the ticket url, up to and including [issues/]. *)
Definition issues_url : string :=
  "https://github.com/cockroachdb/cockroach/" +:+ "issues/".

Definition crdb_skip_message (reason : option string) : string :=
  match reason with
  | None => ""
  | Some "" => ""
  | Some reason =>
      let msg := reason in
      match _crdb_reasons !! reason with
      | Some number =>
          let url := issues_url +:+ pretty number in
          msg +:+ " (" +:+ url +:+ ")"
      | None => msg
      end
  end.

(** A pytest mark: positional arguments and keyword arguments.  A keyword
    argument holds a string or [None] ([skip_crdb] passes [reason=None]). *)
Record Mark : Type := {
  args : list string;
  kwargs : gmap string (option string)
}.

(** [mark.kwargs.get(key)]. *)
Definition kwargs_get (mark : Mark) (key : string) : option string :=
  match kwargs mark !! key with
  | Some v => v
  | None => None
  end.

(** [mark.args[0] if mark.args else "only"]. *)
Definition version_expr (mark : Mark) : string :=
  match args mark with
  | a :: _ => a
  | [] => "only"
  end.

(** [not msg] on the optional message: [None] and the empty string are
    both falsy. *)
Definition no_message (msg : option string) : Prop :=
  msg = None ∨ msg = Some "".

Section check.

(** The [VersionCheck] class of [tests/utils.py], used through its
    classmethod [parse], its attribute [whose] and its method
    [get_skip_message]. *)
Context {VersionCheck Version : Type}.
Context (parse : string -> result VersionCheck).
Context (set_whose : VersionCheck -> string -> VersionCheck).
Context (get_skip_message : VersionCheck -> option Version -> option string).

Definition check_crdb_version
    (got : option Version) (mark : Mark) : result (option string) :=
  _ ← assert (bool_decide (length (args mark) ≤ 1));
  _ ← assert (bool_decide (dom (kwargs mark) ∖ {["reason"]} = (∅ : gset string)));
  pred ← parse (version_expr mark);
  let pred := set_whose pred "CockroachDB" in
  match get_skip_message pred got with
  | None | Some "" => mret None
  | Some msg =>
      let reason := crdb_skip_message (kwargs_get mark "reason") in
      match reason with
      | "" => mret (Some msg)
      | _ => mret (Some (msg +:+ ": " +:+ reason))
      end
  end.

End check.

(** A mark decorator of [pytest.mark]: a mark under its name. *)
Record MarkDecorator : Type := {
  name : string;
  mark : Mark
}.

(** What [pytest.param] builds: the values of one parametrized case and
    the marks applied to it. *)
Record ParameterSet (A : Type) : Type := {
  values : list A;
  marks : list MarkDecorator
}.

Arguments values {A} _.
Arguments marks {A} _.

(** [pytest.mark.crdb("skip", reason=reason)], the mark [skip_crdb]
    applies. *)
Definition skip_mark (reason : option string) : MarkDecorator :=
  {| name := "crdb";
     mark := {| args := ["skip"]; kwargs := {[ "reason" := reason ]} |} |}.

(** [skip_crdb] with its positional arguments, the values of the case,
    and its [reason], [None] by default. *)
Definition skip_crdb {A : Type} (values : list A) (reason : option string)
    : ParameterSet A :=
  {| values := values; marks := [skip_mark reason] |}.

(** Mark tests that fail on CockroachDB because of missing encodings *)
Definition crdb_encoding {A : Type} (values : list A) : ParameterSet A :=
  skip_crdb values (Some "encoding").

(** Mark tests that fail on CockroachDB because time doesn't support
    precision *)
Definition crdb_time_precision {A : Type} (values : list A) : ParameterSet A :=
  skip_crdb values (Some "time precision").

Definition crdb_scs_off {A : Type} (values : list A) : ParameterSet A :=
  skip_crdb values (Some "standard_conforming_strings=off").

End fix_crdb.

(** * Properties *)

(** ** The format enums *)

Lemma getitem_Some `{Countable K} {V : Type} (d : gmap K V) (k : K) (v : V) :
  d !! k = Some v -> getitem d k = Ok v.
Proof. intros Hk. unfold getitem. rewrite Hk. reflexivity. Qed.

Lemma getitem_None `{Countable K} {V : Type} (d : gmap K V) (k : K) :
  d !! k = None -> getitem d k = Raise KeyError.
Proof. intros Hk. unfold getitem. rewrite Hk. reflexivity. Qed.

Lemma py2pg_dom : dom PyFormat._py2pg = {[ PyFormat.TEXT; PyFormat.BINARY ]}.
Proof.
  unfold PyFormat._py2pg. cbn [list_to_map foldr uncurry fst snd].
  rewrite !dom_insert_L, dom_empty_L. set_solver.
Qed.

(** C9: the two tables are inverse of each other.  For every [PyFormat]
    other than [AUTO], [from_pq (as_pq f)] returns [f]; for every wire
    format [g], [as_pq (from_pq g)] returns [g]. *)
Theorem PyFormat_roundtrip (f : PyFormat.t) (g : pq.Format) :
  (f ≠ PyFormat.AUTO → (PyFormat.as_pq f ≫= PyFormat.from_pq) = Ok f)
  ∧ (PyFormat.from_pq g ≫= PyFormat.as_pq) = Ok g.
Proof.
  split.
  - intros Hf. destruct f; [congruence | |].
    + unfold PyFormat.as_pq.
      rewrite (getitem_Some _ _ pq.TEXT) by reflexivity. reflexivity.
    + unfold PyFormat.as_pq.
      rewrite (getitem_Some _ _ pq.BINARY) by reflexivity. reflexivity.
  - destruct g; unfold PyFormat.from_pq.
    + rewrite (getitem_Some _ _ PyFormat.TEXT) by reflexivity. reflexivity.
    + rewrite (getitem_Some _ _ PyFormat.BINARY) by reflexivity. reflexivity.
Qed.

Lemma PyFormat_roundtrip_witness :
  PyFormat.BINARY ≠ PyFormat.AUTO
  ∧ (PyFormat.as_pq PyFormat.BINARY ≫= PyFormat.from_pq) = Ok PyFormat.BINARY
  ∧ (PyFormat.from_pq pq.TEXT ≫= PyFormat.as_pq) = Ok pq.TEXT.
Proof.
  split; [discriminate |].
  destruct (PyFormat_roundtrip PyFormat.BINARY pq.TEXT) as [Hpy Hpg].
  split; [apply Hpy; discriminate | exact Hpg].
Defined.

(** C10: [AUTO] is not a key of [_py2pg], so [as_pq] raises [KeyError] on
    it: [as_pq] is not total on [PyFormat]. *)
Theorem PyFormat_as_pq_AUTO :
  (PyFormat.AUTO ∉ dom PyFormat._py2pg)
  ∧ (PyFormat.as_pq PyFormat.AUTO = Raise KeyError)
  ∧ (¬ ∀ f : PyFormat.t, ∃ g : pq.Format, PyFormat.as_pq f = Ok g).
Proof.
  assert (Hdom : PyFormat.AUTO ∉ dom PyFormat._py2pg).
  { rewrite py2pg_dom, elem_of_union, !elem_of_singleton.
    intros [Heq | Heq]; discriminate Heq. }
  assert (Hraise : PyFormat.as_pq PyFormat.AUTO = Raise KeyError).
  { apply getitem_None. apply not_elem_of_dom. exact Hdom. }
  split; [exact Hdom |]. split; [exact Hraise |].
  intros Htotal. destruct (Htotal PyFormat.AUTO) as [g Hg].
  rewrite Hraise in Hg. discriminate.
Qed.

(** ** Message enrichment *)

(** No reason is listed twice in the table, so every entry of the dict
    literal is an entry of the dict. *)
Lemma crdb_reasons_items_NoDup : NoDup (fix_crdb._crdb_reasons_items.*1).
Proof. apply (bool_decide_unpack _). vm_compute. exact I. Qed.

Lemma crdb_reasons_lookup (reason : string) (number : Z) :
  fix_crdb._crdb_reasons !! reason = Some number
  <-> (reason, number) ∈ fix_crdb._crdb_reasons_items.
Proof.
  symmetry. apply elem_of_list_to_map. exact crdb_reasons_items_NoDup.
Qed.

Lemma crdb_reasons_empty_key : fix_crdb._crdb_reasons !! "" = None.
Proof. vm_compute. reflexivity. Qed.

Lemma crdb_skip_message_key (reason : string) (number : Z) :
  fix_crdb._crdb_reasons !! reason = Some number ->
  fix_crdb.crdb_skip_message (Some reason)
  = reason +:+ " (" +:+ fix_crdb.issues_url +:+ pretty number +:+ ")".
Proof.
  intros Hkey. destruct reason as [| c reason].
  - rewrite crdb_reasons_empty_key in Hkey. discriminate.
  - unfold fix_crdb.crdb_skip_message. rewrite Hkey. reflexivity.
Qed.

Lemma crdb_skip_message_not_key (reason : string) :
  fix_crdb._crdb_reasons !! reason = None ->
  fix_crdb.crdb_skip_message (Some reason) = reason.
Proof.
  intros Hkey. destruct reason as [| c reason]; [reflexivity |].
  unfold fix_crdb.crdb_skip_message. rewrite Hkey. reflexivity.
Qed.

Lemma append_nil_inv (a b : string) : a +:+ b = "" -> a = "" ∧ b = "".
Proof.
  destruct a as [| c a]; intros Happ.
  - split; [reflexivity | exact Happ].
  - change (String c (a +:+ b) = "") in Happ. discriminate Happ.
Qed.

(** The enriched reason is empty only for a reason that is [None] or
    empty. *)
Lemma crdb_skip_message_empty (reason : option string) :
  fix_crdb.crdb_skip_message reason = "" <-> reason = None ∨ reason = Some "".
Proof.
  split.
  - destruct reason as [[| c r] |]; [right; reflexivity | | left; reflexivity].
    unfold fix_crdb.crdb_skip_message.
    destruct (fix_crdb._crdb_reasons !! String c r); discriminate.
  - intros [-> | ->]; reflexivity.
Qed.

(** C6: the enrichment of a reason.  [None] and the empty reason give the
    empty message; a key of [_crdb_reasons] gives the reason followed by
    the ticket url, which ends in [/issues/<number>]; any other reason is
    returned unchanged, the lookup being exact.  [crdb_skip_message] is a
    total function: no input makes it raise. *)
Theorem crdb_skip_message_enrich (reason : string) :
  fix_crdb.crdb_skip_message None = ""
  ∧ fix_crdb.crdb_skip_message (Some "") = ""
  ∧ (∀ number : Z,
       fix_crdb._crdb_reasons !! reason = Some number →
       fix_crdb.crdb_skip_message (Some reason)
       = reason +:+ " (" +:+
         ("https://github.com/cockroachdb/cockroach/issues/" +:+ pretty number)
         +:+ ")")
  ∧ (fix_crdb._crdb_reasons !! reason = None →
       fix_crdb.crdb_skip_message (Some reason) = reason)
  ∧ fix_crdb._crdb_reasons !! "encoding" = Some 35882%Z
  ∧ fix_crdb.crdb_skip_message (Some "encoding")
    = "encoding (https://github.com/cockroachdb/cockroach/issues/35882)"
  ∧ fix_crdb.crdb_skip_message (Some "Encoding") = "Encoding"
  ∧ fix_crdb.crdb_skip_message (Some "not-a-real-reason") = "not-a-real-reason".
Proof.
  split; [reflexivity |]. split; [reflexivity |].
  split; [intros number Hkey; apply (crdb_skip_message_key _ _ Hkey) |].
  split; [apply crdb_skip_message_not_key |].
  split; [vm_compute; reflexivity |].
  split; [vm_compute; reflexivity |].
  split; vm_compute; reflexivity.
Qed.

(** ** The marker binding *)

Section binding.

Context {VersionCheck Version : Type}.
Context (parse : string -> result VersionCheck).
Context (set_whose : VersionCheck -> string -> VersionCheck).
Context (get_skip_message : VersionCheck -> option Version -> option string).

(** The binding only looks at the positional arguments through the
    expression it hands to [parse]. *)
Lemma check_crdb_version_asserted (got : option Version) (mark : fix_crdb.Mark) :
  length (fix_crdb.args mark) ≤ 1 ->
  fix_crdb.check_crdb_version parse set_whose get_skip_message got mark
  = fix_crdb.check_crdb_version parse set_whose get_skip_message got
      {| fix_crdb.args := [fix_crdb.version_expr mark];
         fix_crdb.kwargs := fix_crdb.kwargs mark |}.
Proof.
  intros Hargs. unfold fix_crdb.check_crdb_version. cbn [fix_crdb.args fix_crdb.kwargs].
  rewrite (bool_decide_eq_true_2 (length (fix_crdb.args mark) ≤ 1)) by exact Hargs.
  rewrite (bool_decide_eq_true_2 (length [fix_crdb.version_expr mark] ≤ 1))
    by (cbn; lia).
  reflexivity.
Qed.

Lemma check_crdb_version_too_many_args (got : option Version) (mark : fix_crdb.Mark) :
  1 < length (fix_crdb.args mark) ->
  fix_crdb.check_crdb_version parse set_whose get_skip_message got mark
  = Raise AssertionError.
Proof.
  intros Hargs. unfold fix_crdb.check_crdb_version.
  rewrite (bool_decide_eq_false_2 (length (fix_crdb.args mark) ≤ 1)) by lia.
  reflexivity.
Qed.

Lemma check_crdb_version_bad_keyword
    (got : option Version) (mark : fix_crdb.Mark) (key : string) :
  key ∈ dom (fix_crdb.kwargs mark) -> key ≠ "reason" ->
  fix_crdb.check_crdb_version parse set_whose get_skip_message got mark
  = Raise AssertionError.
Proof.
  intros Hin Hne. unfold fix_crdb.check_crdb_version.
  destruct (bool_decide (length (fix_crdb.args mark) ≤ 1)); [| reflexivity].
  rewrite bool_decide_eq_false_2; [reflexivity |].
  intros Hempty.
  assert (Hk : key ∈ dom (fix_crdb.kwargs mark) ∖ {["reason"]}).
  { apply elem_of_difference. split; [exact Hin |].
    rewrite elem_of_singleton. exact Hne. }
  rewrite Hempty in Hk. exact (not_elem_of_empty key Hk).
Qed.

Lemma check_crdb_version_parsed
    (got : option Version) (mark : fix_crdb.Mark) (pred : VersionCheck) :
  length (fix_crdb.args mark) ≤ 1 ->
  dom (fix_crdb.kwargs mark) ⊆ {["reason"]} ->
  parse (fix_crdb.version_expr mark) = Ok pred ->
  fix_crdb.check_crdb_version parse set_whose get_skip_message got mark
  = match get_skip_message (set_whose pred "CockroachDB") got with
    | None | Some "" => Ok None
    | Some msg =>
        match fix_crdb.crdb_skip_message (fix_crdb.kwargs_get mark "reason") with
        | "" => Ok (Some msg)
        | String _ _ as reason => Ok (Some (msg +:+ ": " +:+ reason))
        end
    end.
Proof.
  intros Hargs Hkw Hparse. unfold fix_crdb.check_crdb_version.
  rewrite (bool_decide_eq_true_2 (length (fix_crdb.args mark) ≤ 1)) by exact Hargs.
  rewrite (bool_decide_eq_true_2
             (dom (fix_crdb.kwargs mark) ∖ {["reason"]} = (∅ : gset string))).
  - cbn. rewrite Hparse. cbn.
    destruct (get_skip_message (set_whose pred "CockroachDB") got)
      as [[| c msg] |]; try reflexivity.
    destruct (fix_crdb.crdb_skip_message (fix_crdb.kwargs_get mark "reason"));
      reflexivity.
  - apply set_eq. intros key.
    rewrite elem_of_difference, elem_of_singleton. split.
    + intros [Hin Hne]. apply Hkw in Hin.
      rewrite elem_of_singleton in Hin. contradiction.
    + intros Hin. destruct (not_elem_of_empty key Hin).
Qed.

End binding.

(** C7: a marker with more than one positional argument, or with a
    keyword argument other than [reason], makes the binding raise
    [AssertionError].  The result does not depend on [parse] or on
    [get_skip_message], whatever they return or raise: the assertions come
    before the expression is parsed or evaluated. *)
Theorem check_crdb_version_misuse
    {VersionCheck Version : Type}
    (parse : string -> result VersionCheck)
    (set_whose : VersionCheck -> string -> VersionCheck)
    (get_skip_message : VersionCheck -> option Version -> option string)
    (got : option Version) (mark : fix_crdb.Mark) :
  1 < length (fix_crdb.args mark)
  ∨ (∃ key : string, key ∈ dom (fix_crdb.kwargs mark) ∧ key ≠ "reason") ->
  fix_crdb.check_crdb_version parse set_whose get_skip_message got mark
  = Raise AssertionError.
Proof.
  intros [Hargs | [key [Hin Hne]]].
  - apply check_crdb_version_too_many_args. exact Hargs.
  - apply (check_crdb_version_bad_keyword _ _ _ _ _ key); assumption.
Qed.

Lemma check_crdb_version_misuse_witness :
  1 < length ["only"; ">= 21.1"]
  ∧ fix_crdb.check_crdb_version
      (fun _ : string => Raise MalformedExpressionError)
      VersionCheck.set_whose (VersionCheck.get_skip_message true)
      (Some [21%N; 2%N])
      {| fix_crdb.args := ["only"; ">= 21.1"]; fix_crdb.kwargs := ∅ |}
    = Raise AssertionError.
Proof.
  split; [cbn; lia |].
  apply check_crdb_version_misuse. left. cbn. lia.
Defined.

(** C8: on a well-formed marker whose expression parses, the binding
    returns [None] exactly when [get_skip_message] yields no message (a
    falsy one); otherwise it returns a non-empty string: the skip message
    itself when the enriched reason is empty, and the skip message
    extended with the enriched reason when a non-empty reason is
    supplied. *)
Theorem check_crdb_version_message
    {VersionCheck Version : Type}
    (parse : string -> result VersionCheck)
    (set_whose : VersionCheck -> string -> VersionCheck)
    (get_skip_message : VersionCheck -> option Version -> option string)
    (got : option Version) (mark : fix_crdb.Mark) (pred : VersionCheck) :
  length (fix_crdb.args mark) ≤ 1 ->
  dom (fix_crdb.kwargs mark) ⊆ {["reason"]} ->
  parse (fix_crdb.version_expr mark) = Ok pred ->
  (fix_crdb.check_crdb_version parse set_whose get_skip_message got mark = Ok None
   ↔ fix_crdb.no_message (get_skip_message (set_whose pred "CockroachDB") got))
  ∧ (∀ msg : string,
       get_skip_message (set_whose pred "CockroachDB") got = Some msg →
       msg ≠ "" →
       ∃ out : string,
         fix_crdb.check_crdb_version parse set_whose get_skip_message got mark
         = Ok (Some out)
         ∧ out ≠ ""
         ∧ (fix_crdb.crdb_skip_message (fix_crdb.kwargs_get mark "reason") = "" →
            out = msg)
         ∧ (∀ reason : string,
              fix_crdb.kwargs_get mark "reason" = Some reason →
              reason ≠ "" →
              fix_crdb.crdb_skip_message (Some reason) ≠ ""
              ∧ out = msg +:+ ": " +:+ fix_crdb.crdb_skip_message (Some reason))).
Proof.
  intros Hargs Hkw Hparse.
  rewrite (check_crdb_version_parsed _ _ _ _ _ pred Hargs Hkw Hparse).
  unfold fix_crdb.no_message.
  destruct (get_skip_message (set_whose pred "CockroachDB") got)
    as [[| c msg] |] eqn:Hmsg.
  - split; [split; [intros _; right; reflexivity | reflexivity] |].
    intros msg [= <-] Hne. contradiction.
  - split.
    + split.
      * destruct (fix_crdb.crdb_skip_message (fix_crdb.kwargs_get mark "reason"));
          discriminate.
      * intros [Hnone | Hempty]; discriminate.
    + intros msg' [= <-] _.
      destruct (fix_crdb.crdb_skip_message (fix_crdb.kwargs_get mark "reason"))
        as [| c' r'] eqn:Hreason.
      * exists (String c msg). split; [reflexivity |]. split; [discriminate |].
        split; [reflexivity |].
        intros reason Hget Hne. rewrite Hget in Hreason.
        apply crdb_skip_message_empty in Hreason as [Hnone | Hempty].
        -- discriminate.
        -- injection Hempty as ->. contradiction.
      * exists (String c msg +:+ ": " +:+ String c' r').
        split; [reflexivity |]. split; [discriminate |].
        split; [discriminate |].
        intros reason Hget Hne. rewrite Hget in Hreason. rewrite Hreason.
        split; [discriminate | reflexivity].
  - split; [split; [intros _; left; reflexivity | reflexivity] |].
    intros msg [=].
Qed.

Lemma check_crdb_version_message_witness :
  fix_crdb.check_crdb_version
    VersionCheck.parse VersionCheck.set_whose (VersionCheck.get_skip_message true)
    (Some [21%N; 9%N])
    {| fix_crdb.args := ["skip < 22"];
       fix_crdb.kwargs := {[ "reason" := Some "encoding" ]} |}
  = Ok (Some ("not supported on CockroachDB matching this predicate"
              +:+ ": " +:+ fix_crdb.crdb_skip_message (Some "encoding"))).
Proof.
  pose (mark := {| fix_crdb.args := ["skip < 22"];
                   fix_crdb.kwargs := {[ "reason" := Some "encoding" ]} |}).
  assert (Hargs : length (fix_crdb.args mark) ≤ 1) by (cbn; lia).
  assert (Hkw : dom (fix_crdb.kwargs mark) ⊆ {["reason"]}).
  { cbn. rewrite dom_singleton_L. reflexivity. }
  destruct (VersionCheck.parse (fix_crdb.version_expr mark)) as [pred |] eqn:Hparse;
    [| vm_compute in Hparse; discriminate Hparse].
  destruct (check_crdb_version_message
              VersionCheck.parse VersionCheck.set_whose
              (VersionCheck.get_skip_message true)
              (Some [21%N; 9%N]) mark pred Hargs Hkw Hparse) as [_ Hmsg].
  vm_compute in Hparse. injection Hparse as <-.
  destruct (Hmsg "not supported on CockroachDB matching this predicate")
    as (out & Hout & _ & _ & Hext).
  - vm_compute. reflexivity.
  - discriminate.
  - destruct (Hext "encoding") as [_ ->]; [vm_compute; reflexivity | discriminate |].
    exact Hout.
Defined.

(** C4: a marker without positional argument makes the binding parse
    the expression ["only"]: what [parse] raises on ["only"] is raised, and
    the predicate it returns there is the one [get_skip_message] is asked
    about, so that the marker is bound as if it carried ["only"].  And
    [parse] gives the same predicate for the empty expression and for
    ["only"]: qualifier [Only], no operator, no boundary. *)
Theorem default_expression_only :
  (∀ kw : gmap string (option string),
     fix_crdb.version_expr {| fix_crdb.args := []; fix_crdb.kwargs := kw |}
     = "only")
  ∧ (∀ (VersionCheck Version : Type)
       (parse : string -> result VersionCheck)
       (set_whose : VersionCheck -> string -> VersionCheck)
       (get_skip_message : VersionCheck -> option Version -> option string)
       (got : option Version) (kw : gmap string (option string)),
       fix_crdb.check_crdb_version parse set_whose get_skip_message got
         {| fix_crdb.args := []; fix_crdb.kwargs := kw |}
       = fix_crdb.check_crdb_version parse set_whose get_skip_message got
           {| fix_crdb.args := ["only"]; fix_crdb.kwargs := kw |})
  ∧ (∀ (VersionCheck Version : Type)
       (parse : string -> result VersionCheck)
       (set_whose : VersionCheck -> string -> VersionCheck)
       (get_skip_message : VersionCheck -> option Version -> option string)
       (got : option Version) (kw : gmap string (option string)),
       dom kw ⊆ {["reason"]} →
       fix_crdb.check_crdb_version parse set_whose get_skip_message got
         {| fix_crdb.args := []; fix_crdb.kwargs := kw |}
       = match parse "only" with
         | Raise e => Raise e
         | Ok pred =>
             match get_skip_message (set_whose pred "CockroachDB") got with
             | None | Some "" => Ok None
             | Some msg =>
                 match fix_crdb.crdb_skip_message
                         (fix_crdb.kwargs_get
                            {| fix_crdb.args := []; fix_crdb.kwargs := kw |}
                            "reason") with
                 | "" => Ok (Some msg)
                 | String _ _ as reason => Ok (Some (msg +:+ ": " +:+ reason))
                 end
             end
         end)
  ∧ VersionCheck.parse_predicate ""
    = Ok {| VersionCheck.qualifier := VersionCheck.Only;
            VersionCheck.operator := None;
            VersionCheck.boundary := None |}
  ∧ VersionCheck.parse_predicate "only"
    = Ok {| VersionCheck.qualifier := VersionCheck.Only;
            VersionCheck.operator := None;
            VersionCheck.boundary := None |}
  ∧ VersionCheck.parse "" = VersionCheck.parse "only".
Proof.
  split; [intros kw; reflexivity |].
  split; [| split].
  - intros VersionCheck Version parse set_whose get_skip_message got kw.
    apply (check_crdb_version_asserted parse set_whose get_skip_message got
             {| fix_crdb.args := []; fix_crdb.kwargs := kw |}).
    cbn. lia.
  - intros VersionCheck Version parse set_whose get_skip_message got kw Hkw.
    destruct (parse "only") as [pred | e] eqn:Hparse.
    + apply (check_crdb_version_parsed parse set_whose get_skip_message got
               {| fix_crdb.args := []; fix_crdb.kwargs := kw |} pred);
        [cbn; lia | exact Hkw | exact Hparse].
    + unfold fix_crdb.check_crdb_version.
      cbn [fix_crdb.args fix_crdb.kwargs fix_crdb.version_expr].
      rewrite (bool_decide_eq_true_2 (length (@nil string) ≤ 1)) by (cbn; lia).
      rewrite (bool_decide_eq_true_2
                 (dom kw ∖ {["reason"]} = (∅ : gset string)))
        by (apply subseteq_empty_difference_L; exact Hkw).
      cbn. rewrite Hparse. reflexivity.
  - repeat split; reflexivity.
Qed.

Lemma default_expression_only_witness :
  fix_crdb.check_crdb_version
    (fun expr : string =>
       if String.eqb expr "only" then Raise MalformedExpressionError
       else VersionCheck.parse expr)
    VersionCheck.set_whose (VersionCheck.get_skip_message false)
    (@None VersionTuple.t)
    {| fix_crdb.args := []; fix_crdb.kwargs := {[ "reason" := Some "cidr" ]} |}
  = Raise MalformedExpressionError
  ∧ fix_crdb.check_crdb_version
      VersionCheck.parse VersionCheck.set_whose
      (VersionCheck.get_skip_message false) (@None VersionTuple.t)
      {| fix_crdb.args := []; fix_crdb.kwargs := {[ "reason" := Some "cidr" ]} |}
    = Ok (Some ("test is specific to CockroachDB: "
                +:+ fix_crdb.crdb_skip_message (Some "cidr"))).
Proof.
  destruct default_expression_only as (_ & _ & Hbound & _).
  split.
  - rewrite Hbound; [reflexivity |]. rewrite dom_singleton_L. reflexivity.
  - rewrite Hbound; [vm_compute; reflexivity |].
    rewrite dom_singleton_L. reflexivity.
Defined.

(** ** Evaluation of a version check *)

(** A skip message built by [get_skip_message] is never empty. *)
Lemma get_skip_message_nonempty
    (is_named_flavor : bool) (vc : VersionCheck.t)
    (actual_version : option VersionTuple.t) (msg : string) :
  VersionCheck.get_skip_message is_named_flavor vc actual_version = Some msg ->
  msg ≠ "".
Proof.
  unfold VersionCheck.get_skip_message.
  destruct (VersionCheck.qualifier _), is_named_flavor;
    try destruct (VersionCheck.comparison_matches _ _);
    intros [= <-]; try discriminate.
  intros Hempty. apply append_nil_inv in Hempty as [_ Hempty]. discriminate.
Qed.

(** C1: a predicate parsed with qualifier [Only], with or without a
    comparison clause, gives a skip message on a server that is not the
    named flavor, whatever the actual version (reported or not). *)
Theorem only_skips_on_other_flavor
    (expr : string) (vc : VersionCheck.t) (name : string)
    (actual_version : option VersionTuple.t) :
  VersionCheck.parse expr = Ok vc ->
  VersionCheck.qualifier (VersionCheck.predicate vc) = VersionCheck.Only ->
  ∃ msg : string,
    VersionCheck.get_skip_message false (VersionCheck.set_whose vc name)
      actual_version = Some msg
    ∧ msg ≠ ""
    ∧ msg = "test is specific to " +:+ name.
Proof.
  intros _ Honly.
  exists ("test is specific to " +:+ name).
  split; [| split; [discriminate | reflexivity]].
  unfold VersionCheck.get_skip_message. cbn. rewrite Honly. reflexivity.
Qed.

Lemma only_skips_on_other_flavor_witness :
  ∃ vc : VersionCheck.t,
    VersionCheck.parse "only >= 21.1" = Ok vc
    ∧ VersionCheck.operator (VersionCheck.predicate vc) = Some VersionCheck.OpGe
    ∧ ∃ msg : string,
        VersionCheck.get_skip_message false
          (VersionCheck.set_whose vc "CockroachDB") (Some [22%N; 1%N]) = Some msg
        ∧ msg ≠ ""
        ∧ msg = "test is specific to " +:+ "CockroachDB".
Proof.
  eexists. split; [vm_compute; reflexivity |].
  split; [reflexivity |].
  apply (only_skips_on_other_flavor "only >= 21.1"); [vm_compute |]; reflexivity.
Defined.

(** C2: the predicate parsed from ["skip < 22"], on the named flavor,
    skips at version 21.9 and does not skip at version 22.0. *)
Theorem skip_lt_22 :
  ∃ (vc : VersionCheck.t) (v_21_9 v_22_0 : VersionTuple.t),
    VersionCheck.parse "skip < 22" = Ok vc
    ∧ VersionTuple.of_string "21.9" = Some v_21_9
    ∧ VersionTuple.of_string "22.0" = Some v_22_0
    ∧ (∃ msg : string,
         VersionCheck.get_skip_message true vc (Some v_21_9) = Some msg
         ∧ msg ≠ "")
    ∧ VersionCheck.get_skip_message true vc (Some v_22_0) = None.
Proof.
  eexists. exists [21%N; 9%N], [22%N; 0%N].
  split; [vm_compute; reflexivity |].
  split; [vm_compute; reflexivity |].
  split; [vm_compute; reflexivity |].
  split; [| vm_compute; reflexivity].
  eexists. split; [vm_compute; reflexivity | discriminate].
Qed.

(** ** Comparison of version tuples *)

Lemma lexico_cons (x y : N) (a b : VersionTuple.t) :
  lexico (x :: a) (y :: b) <-> (x < y)%N ∨ (x = y ∧ lexico a b).
Proof. reflexivity. Qed.

Lemma lex_compare_Eq (a b : VersionTuple.t) :
  VersionTuple.lex_compare a b = Eq <-> a = b.
Proof.
  revert b. induction a as [| x a IH]; intros [| y b]; cbn; try (split; congruence).
  destruct (N.compare_spec x y) as [-> | Hlt | Hgt].
  - rewrite IH. split; congruence.
  - split; [discriminate | intros [= -> _]; lia].
  - split; [discriminate | intros [= -> _]; lia].
Qed.

Lemma lex_compare_Lt (a b : VersionTuple.t) :
  VersionTuple.lex_compare a b = Lt <-> lexico a b.
Proof.
  revert b. induction a as [| x a IH]; intros [| y b].
  - cbn. split; [discriminate | intros []].
  - cbn. split; [intros _; exact I | reflexivity].
  - cbn. split; [discriminate | intros []].
  - rewrite lexico_cons. cbn.
    destruct (N.compare_spec x y) as [-> | Hlt | Hgt].
    + rewrite IH. split; [intros Hab; right; split; [reflexivity | exact Hab] |].
      intros [Hlt | [_ Hab]]; [lia | exact Hab].
    + split; [intros _; left; exact Hlt | reflexivity].
    + split; [discriminate | intros [Hlt | [-> _]]; lia].
Qed.

Lemma lex_compare_antisym (a b : VersionTuple.t) :
  VersionTuple.lex_compare b a = CompOpp (VersionTuple.lex_compare a b).
Proof.
  revert b. induction a as [| x a IH]; intros [| y b]; cbn; try reflexivity.
  rewrite (N.compare_antisym x y).
  destruct (x ?= y)%N; cbn; [apply IH | reflexivity | reflexivity].
Qed.

Lemma lex_compare_Gt (a b : VersionTuple.t) :
  VersionTuple.lex_compare a b = Gt <-> lexico b a.
Proof.
  rewrite <- lex_compare_Lt, (lex_compare_antisym a b).
  destruct (VersionTuple.lex_compare a b); cbn; split; congruence.
Qed.

Lemma pad_length (n : nat) (v : VersionTuple.t) :
  length v ≤ n -> length (VersionTuple.pad n v) = n.
Proof.
  intros Hle. unfold VersionTuple.pad.
  rewrite length_app, length_replicate. lia.
Qed.

Lemma strip_zeros_replicate (k : nat) :
  VersionTuple.strip_zeros (replicate k 0%N) = [].
Proof. induction k as [| k IH]; cbn; [reflexivity | rewrite IH; reflexivity]. Qed.

Lemma strip_zeros_app_zeros (v : VersionTuple.t) (k : nat) :
  VersionTuple.strip_zeros (v ++ replicate k 0%N) = VersionTuple.strip_zeros v.
Proof.
  induction v as [| x v IH]; cbn.
  - apply strip_zeros_replicate.
  - rewrite IH. reflexivity.
Qed.

Lemma strip_zeros_decompose (v : VersionTuple.t) :
  v = VersionTuple.strip_zeros v
      ++ replicate (length v - length (VersionTuple.strip_zeros v)) 0%N.
Proof.
  induction v as [| x v IH]; [reflexivity |].
  cbn [VersionTuple.strip_zeros].
  destruct (VersionTuple.strip_zeros v) as [| y r] eqn:Hstrip.
  - cbn in IH. rewrite Nat.sub_0_r in IH.
    destruct (N.eqb_spec x 0) as [-> | Hx]; cbn.
    + rewrite IH at 1. reflexivity.
    + rewrite Nat.sub_0_r. rewrite IH at 1. reflexivity.
  - cbn. cbn in IH. rewrite IH at 1. reflexivity.
Qed.

Lemma strip_zeros_length (v : VersionTuple.t) :
  length (VersionTuple.strip_zeros v) ≤ length v.
Proof.
  induction v as [| x v IH]; cbn; [lia |].
  destruct (VersionTuple.strip_zeros v) as [| y r]; [| cbn in *; lia].
  destruct (x =? 0)%N; cbn; lia.
Qed.

(** Padding only depends on the version through its stripped form. *)
Lemma pad_strip_zeros (n : nat) (v : VersionTuple.t) :
  length v ≤ n ->
  VersionTuple.pad n v
  = VersionTuple.strip_zeros v
    ++ replicate (n - length (VersionTuple.strip_zeros v)) 0%N.
Proof.
  intros Hle. unfold VersionTuple.pad.
  pose proof (strip_zeros_length v) as Hlen.
  rewrite (strip_zeros_decompose v) at 1.
  rewrite <- app_assoc, <- replicate_add. f_equal. f_equal. lia.
Qed.

Lemma compare_Eq_pad (a b : VersionTuple.t) :
  VersionTuple.compare a b = Eq
  <-> VersionTuple.pad (max (length a) (length b)) a
      = VersionTuple.pad (max (length a) (length b)) b.
Proof. unfold VersionTuple.compare. apply lex_compare_Eq. Qed.

Lemma compare_Eq_strip_zeros (a b : VersionTuple.t) :
  VersionTuple.compare a b = Eq
  <-> VersionTuple.strip_zeros a = VersionTuple.strip_zeros b.
Proof.
  rewrite compare_Eq_pad. split.
  - intros Hpad. apply (f_equal VersionTuple.strip_zeros) in Hpad.
    unfold VersionTuple.pad in Hpad.
    rewrite !strip_zeros_app_zeros in Hpad. exact Hpad.
  - intros Hstrip.
    rewrite (pad_strip_zeros _ a), (pad_strip_zeros _ b) by lia.
    rewrite Hstrip. reflexivity.
Qed.

Lemma compare_app_zeros (a : VersionTuple.t) (k : nat) :
  VersionTuple.compare a (a ++ replicate k 0%N) = Eq
  ∧ VersionTuple.compare (a ++ replicate k 0%N) a = Eq.
Proof.
  rewrite !compare_Eq_strip_zeros, strip_zeros_app_zeros.
  split; reflexivity.
Qed.

(** C3: two version tuples with the same numeric content, that is equal
    up to trailing zeros, compare equal whatever their lengths, as do the
    tuples parsed from ["21.2"] and ["21.2.0"]; and the comparison of any
    two tuples is the lexicographic order of the two tuples padded with
    zeros to their common length. *)
Theorem version_compare_padding (a b : VersionTuple.t) :
  (VersionTuple.strip_zeros a = VersionTuple.strip_zeros b
   ↔ VersionTuple.compare a b = Eq)
  ∧ (∀ k : nat,
       VersionTuple.compare a (a ++ replicate k 0%N) = Eq
       ∧ VersionTuple.compare (a ++ replicate k 0%N) a = Eq)
  ∧ (length (VersionTuple.pad (max (length a) (length b)) a)
     = length (VersionTuple.pad (max (length a) (length b)) b))
  ∧ (VersionTuple.compare a b = Eq
     ↔ VersionTuple.pad (max (length a) (length b)) a
       = VersionTuple.pad (max (length a) (length b)) b)
  ∧ (VersionTuple.compare a b = Lt
     ↔ lexico (VersionTuple.pad (max (length a) (length b)) a)
              (VersionTuple.pad (max (length a) (length b)) b))
  ∧ (VersionTuple.compare a b = Gt
     ↔ lexico (VersionTuple.pad (max (length a) (length b)) b)
              (VersionTuple.pad (max (length a) (length b)) a))
  ∧ (∃ v w : VersionTuple.t,
       VersionTuple.of_string "21.2" = Some v
       ∧ VersionTuple.of_string "21.2.0" = Some w
       ∧ length v ≠ length w
       ∧ VersionTuple.compare v w = Eq
       ∧ VersionCheck.holds VersionCheck.OpEq v w = true).
Proof.
  split; [symmetry; apply compare_Eq_strip_zeros |].
  split; [intros k; apply compare_app_zeros |].
  split; [rewrite !pad_length by lia; reflexivity |].
  split; [apply compare_Eq_pad |].
  split; [apply lex_compare_Lt |].
  split; [apply lex_compare_Gt |].
  exists [21%N; 2%N], [21%N; 2%N; 0%N].
  repeat split; try (vm_compute; reflexivity).
  cbn. lia.
Qed.

(** ** Strings *)


Lemma string_app_cons (c : ascii) (a b : string) :
  String c a +:+ b = String c (a +:+ b).
Proof. reflexivity. Qed.

Lemma string_app_nil_r (s : string) : s +:+ "" = s.
Proof.
  induction s as [| c s IH]; [reflexivity |].
  rewrite string_app_cons, IH. reflexivity.
Qed.


Lemma all_chars_app (p : ascii -> bool) (a b : string) :
  all_chars p (a +:+ b) = all_chars p a && all_chars p b.
Proof.
  induction a as [| c a IH]; [reflexivity |].
  rewrite string_app_cons. cbn. rewrite IH. apply andb_assoc.
Qed.









Lemma span_all_chars (p : ascii -> bool) (s : string) :
  all_chars p (span p s).1 = true.
Proof.
  induction s as [| c s IH]; [reflexivity |].
  cbn. destruct (p c) eqn:Hc; [| reflexivity].
  destruct (span p s) as [a b]. cbn in *. rewrite Hc, IH. reflexivity.
Qed.











(** ** Version literals *)


















(** ** Tokens *)







(** ** The parser and the grammar *)














(** ** Examples *)

(** The six rows of the decision table, on ["only >= 21.1"] and
    ["skip < 22"]. *)
Example decision_table_rows :
  ∃ only_ge skip_lt : VersionCheck.t,
    (VersionCheck.parse "only >= 21.1" ≫= fun vc =>
       mret (VersionCheck.set_whose vc "CockroachDB")) = Ok only_ge
    ∧ (VersionCheck.parse "skip < 22" ≫= fun vc =>
         mret (VersionCheck.set_whose vc "CockroachDB")) = Ok skip_lt
    ∧ VersionCheck.get_skip_message false only_ge None
      = Some "test is specific to CockroachDB"
    ∧ VersionCheck.get_skip_message true only_ge (Some [21%N; 0%N; 9%N])
      = Some "CockroachDB version mismatch"
    ∧ VersionCheck.get_skip_message true only_ge (Some [21%N; 1%N]) = None
    ∧ VersionCheck.get_skip_message false skip_lt (Some [21%N; 9%N]) = None
    ∧ VersionCheck.get_skip_message true skip_lt (Some [22%N]) = None
    ∧ VersionCheck.get_skip_message true skip_lt (Some [21%N; 9%N])
      = Some "not supported on CockroachDB matching this predicate".
Proof. do 2 eexists. repeat split; vm_compute; reflexivity. Qed.

(** Expressions inside and outside the grammar. *)
Example parse_predicate_examples :
  VersionCheck.parse_predicate "  skip  "
  = Ok {| VersionCheck.qualifier := VersionCheck.Skip;
          VersionCheck.operator := None;
          VersionCheck.boundary := None |}
  ∧ VersionCheck.parse_predicate "only>=21.2.10"
    = Ok {| VersionCheck.qualifier := VersionCheck.Only;
            VersionCheck.operator := Some VersionCheck.OpGe;
            VersionCheck.boundary := Some [21%N; 2%N; 10%N] |}
  ∧ VersionCheck.parse_predicate "Only" = Raise MalformedExpressionError
  ∧ VersionCheck.parse_predicate "only => 21" = Raise MalformedExpressionError
  ∧ VersionCheck.parse_predicate "only 21" = Raise MalformedExpressionError
  ∧ VersionCheck.parse_predicate "only >= 21..2" = Raise MalformedExpressionError
  ∧ VersionCheck.parse_predicate "only >= -1" = Raise MalformedExpressionError
  ∧ VersionCheck.parse_predicate "only >= 21.1 22" = Raise MalformedExpressionError.
Proof. repeat split; vm_compute; reflexivity. Qed.

(** The expressions that [fix_crdb.py] documents, in the help text of
    the marker and in the docstring of [check_crdb_version], all parse;
    without qualifier they parse as with [only]. *)
Example documented_expressions :
  VersionCheck.parse_predicate ">= 21.1" = VersionCheck.parse_predicate "only >= 21.1"
  ∧ VersionCheck.parse_predicate ">= 21.2.10"
    = Ok {| VersionCheck.qualifier := VersionCheck.Only;
            VersionCheck.operator := Some VersionCheck.OpGe;
            VersionCheck.boundary := Some [21%N; 2%N; 10%N] |}
  ∧ VersionCheck.parse_predicate "< 22.1"
    = Ok {| VersionCheck.qualifier := VersionCheck.Only;
            VersionCheck.operator := Some VersionCheck.OpLt;
            VersionCheck.boundary := Some [22%N; 1%N] |}
  ∧ VersionCheck.parse_predicate "skip"
    = Ok {| VersionCheck.qualifier := VersionCheck.Skip;
            VersionCheck.operator := None;
            VersionCheck.boundary := None |}
  ∧ VersionCheck.parse_predicate "skip < 22"
    = Ok {| VersionCheck.qualifier := VersionCheck.Skip;
            VersionCheck.operator := Some VersionCheck.OpLt;
            VersionCheck.boundary := Some [22%N] |}
  ∧ VersionCheck.parse_predicate "only >= 21.1"
    = Ok {| VersionCheck.qualifier := VersionCheck.Only;
            VersionCheck.operator := Some VersionCheck.OpGe;
            VersionCheck.boundary := Some [21%N; 1%N] |}.
Proof. repeat split; vm_compute; reflexivity. Qed.

(** A keyword other than [reason] is a misuse of the marker, also next to
    a [reason]. *)
Example check_crdb_version_unknown_keyword :
  fix_crdb.check_crdb_version
    VersionCheck.parse VersionCheck.set_whose (VersionCheck.get_skip_message true)
    (Some [22%N; 1%N])
    {| fix_crdb.args := ["skip"];
       fix_crdb.kwargs := {[ "reason" := Some "cidr"; "detail" := None ]} |}
  = Raise AssertionError.
Proof. vm_compute. reflexivity. Qed.

(** [skip_crdb] passes [reason=None]: the message is left as it is. *)
Example check_crdb_version_reason_None :
  fix_crdb.check_crdb_version
    VersionCheck.parse VersionCheck.set_whose (VersionCheck.get_skip_message true)
    (Some [22%N; 1%N])
    {| fix_crdb.args := ["skip"]; fix_crdb.kwargs := {[ "reason" := None ]} |}
  = Ok (Some "not supported on CockroachDB matching this predicate").
Proof. vm_compute. reflexivity. Qed.

(** * Further properties of the code *)

(** ** The binding on any marker *)

Section binding_outcomes.

Context {VersionCheck Version : Type}.
Context (parse : string -> result VersionCheck).
Context (set_whose : VersionCheck -> string -> VersionCheck).
Context (get_skip_message : VersionCheck -> option Version -> option string).

(** A marker that passes the assertions makes [parse] run, and what
    [parse] raises is what the binding raises. *)
Lemma check_crdb_version_parse_raise
    (got : option Version) (mark : fix_crdb.Mark) (e : exn) :
  length (fix_crdb.args mark) ≤ 1 ->
  dom (fix_crdb.kwargs mark) ⊆ {["reason"]} ->
  parse (fix_crdb.version_expr mark) = Raise e ->
  fix_crdb.check_crdb_version parse set_whose get_skip_message got mark = Raise e.
Proof.
  intros Hargs Hkw Hparse. unfold fix_crdb.check_crdb_version.
  rewrite (bool_decide_eq_true_2 (length (fix_crdb.args mark) ≤ 1)) by exact Hargs.
  rewrite (bool_decide_eq_true_2
             (dom (fix_crdb.kwargs mark) ∖ {["reason"]} = (∅ : gset string)))
    by (apply subseteq_empty_difference_L; exact Hkw).
  cbn. rewrite Hparse. reflexivity.
Qed.

(** What the binding returns once [parse] has given a predicate. *)
Lemma check_crdb_version_parsed_Ok
    (got : option Version) (mark : fix_crdb.Mark) (pred : VersionCheck) :
  length (fix_crdb.args mark) ≤ 1 ->
  dom (fix_crdb.kwargs mark) ⊆ {["reason"]} ->
  parse (fix_crdb.version_expr mark) = Ok pred ->
  ∃ out : option string,
    fix_crdb.check_crdb_version parse set_whose get_skip_message got mark = Ok out.
Proof.
  intros Hargs Hkw Hparse.
  rewrite (check_crdb_version_parsed _ _ _ _ _ pred Hargs Hkw Hparse).
  destruct (get_skip_message (set_whose pred "CockroachDB") got) as [[| c msg] |];
    [eexists; reflexivity | | eexists; reflexivity].
  destruct (fix_crdb.crdb_skip_message (fix_crdb.kwargs_get mark "reason"));
    eexists; reflexivity.
Qed.

End binding_outcomes.

(** X1: on a marker that passes the two assertions, the binding raises
    exactly what [parse] raises on the marker's expression: a malformed
    expression aborts the check with the parser's own error, and nothing
    after the parse raises. *)
Theorem check_crdb_version_raises_as_parse
    {VersionCheck Version : Type}
    (parse : string -> result VersionCheck)
    (set_whose : VersionCheck -> string -> VersionCheck)
    (get_skip_message : VersionCheck -> option Version -> option string)
    (got : option Version) (mark : fix_crdb.Mark) (e : exn) :
  length (fix_crdb.args mark) ≤ 1 ->
  dom (fix_crdb.kwargs mark) ⊆ {["reason"]} ->
  fix_crdb.check_crdb_version parse set_whose get_skip_message got mark = Raise e
  ↔ parse (fix_crdb.version_expr mark) = Raise e.
Proof.
  intros Hargs Hkw. split.
  - intros Hcheck.
    destruct (parse (fix_crdb.version_expr mark)) as [pred | e'] eqn:Hparse.
    + destruct (check_crdb_version_parsed_Ok parse set_whose get_skip_message
                  got mark pred Hargs Hkw Hparse) as [out Hout].
      rewrite Hout in Hcheck. discriminate.
    + rewrite (check_crdb_version_parse_raise parse set_whose get_skip_message
                 got mark e' Hargs Hkw Hparse) in Hcheck.
      injection Hcheck as ->. reflexivity.
  - apply check_crdb_version_parse_raise; assumption.
Qed.

Lemma check_crdb_version_raises_as_parse_witness :
  fix_crdb.check_crdb_version
    VersionCheck.parse VersionCheck.set_whose (VersionCheck.get_skip_message true)
    (Some [22%N; 1%N])
    {| fix_crdb.args := ["maybe >= 1"];
       fix_crdb.kwargs := {[ "reason" := Some "cidr" ]} |}
  = Raise MalformedExpressionError.
Proof.
  apply check_crdb_version_raises_as_parse.
  - cbn. lia.
  - cbn. rewrite dom_singleton_L. reflexivity.
  - vm_compute. reflexivity.
Defined.

(** X2: whatever [parse] and [get_skip_message] do, the binding ends in
    one of three ways: it raises, it returns [None], or it returns a
    non-empty message that starts with a non-empty message of
    [get_skip_message], computed on the parsed predicate once its [whose]
    is set to ["CockroachDB"], and is either that message or that message
    followed by [": "] and a non-empty reason. *)
Theorem check_crdb_version_outcome
    {VersionCheck Version : Type}
    (parse : string -> result VersionCheck)
    (set_whose : VersionCheck -> string -> VersionCheck)
    (get_skip_message : VersionCheck -> option Version -> option string)
    (got : option Version) (mark : fix_crdb.Mark) :
  (∃ e : exn,
     fix_crdb.check_crdb_version parse set_whose get_skip_message got mark
     = Raise e)
  ∨ fix_crdb.check_crdb_version parse set_whose get_skip_message got mark
    = Ok None
  ∨ (∃ (pred : VersionCheck) (msg out : string),
       parse (fix_crdb.version_expr mark) = Ok pred
       ∧ get_skip_message (set_whose pred "CockroachDB") got = Some msg
       ∧ msg ≠ ""
       ∧ fix_crdb.check_crdb_version parse set_whose get_skip_message got mark
         = Ok (Some out)
       ∧ out ≠ ""
       ∧ (out = msg ∨ ∃ reason : string, reason ≠ "" ∧ out = msg +:+ ": " +:+ reason)).
Proof.
  unfold fix_crdb.check_crdb_version.
  destruct (bool_decide (length (fix_crdb.args mark) ≤ 1));
    [| left; eexists; reflexivity].
  destruct (bool_decide (dom (fix_crdb.kwargs mark) ∖ {["reason"]} = ∅));
    [| left; eexists; reflexivity].
  cbn.
  destruct (parse (fix_crdb.version_expr mark)) as [pred | e];
    [| left; eexists; reflexivity].
  cbn.
  destruct (get_skip_message (set_whose pred "CockroachDB") got)
    as [[| c msg] |] eqn:Hmsg;
    [right; left; reflexivity | | right; left; reflexivity].
  right. right. exists pred, (String c msg).
  destruct (fix_crdb.crdb_skip_message (fix_crdb.kwargs_get mark "reason"))
    as [| c' r'].
  - exists (String c msg).
    split; [reflexivity |]. split; [exact Hmsg |]. split; [discriminate |].
    split; [reflexivity |]. split; [discriminate |].
    left. reflexivity.
  - exists (String c msg +:+ ": " +:+ String c' r').
    split; [reflexivity |]. split; [exact Hmsg |]. split; [discriminate |].
    split; [reflexivity |]. split; [discriminate |].
    right. exists (String c' r'). split; [discriminate | reflexivity].
Qed.

(** The binding reads its keyword arguments through the reason only. *)
Lemma check_crdb_version_same_reason
    {VersionCheck Version : Type}
    (parse : string -> result VersionCheck)
    (set_whose : VersionCheck -> string -> VersionCheck)
    (get_skip_message : VersionCheck -> option Version -> option string)
    (got : option Version) (positional : list string)
    (kw1 kw2 : gmap string (option string)) :
  dom kw1 ⊆ {["reason"]} ->
  dom kw2 ⊆ {["reason"]} ->
  fix_crdb.crdb_skip_message
    (fix_crdb.kwargs_get {| fix_crdb.args := positional; fix_crdb.kwargs := kw1 |}
       "reason")
  = fix_crdb.crdb_skip_message
      (fix_crdb.kwargs_get {| fix_crdb.args := positional; fix_crdb.kwargs := kw2 |}
         "reason") ->
  fix_crdb.check_crdb_version parse set_whose get_skip_message got
    {| fix_crdb.args := positional; fix_crdb.kwargs := kw1 |}
  = fix_crdb.check_crdb_version parse set_whose get_skip_message got
      {| fix_crdb.args := positional; fix_crdb.kwargs := kw2 |}.
Proof.
  intros Hkw1 Hkw2 Hreason.
  unfold fix_crdb.check_crdb_version, fix_crdb.version_expr.
  cbn [fix_crdb.args fix_crdb.kwargs].
  rewrite (bool_decide_eq_true_2 (dom kw1 ∖ {["reason"]} = (∅ : gset string)))
    by (apply subseteq_empty_difference_L; exact Hkw1).
  rewrite (bool_decide_eq_true_2 (dom kw2 ∖ {["reason"]} = (∅ : gset string)))
    by (apply subseteq_empty_difference_L; exact Hkw2).
  destruct (bool_decide (length positional ≤ 1)); [| reflexivity].
  cbn.
  match goal with
  | |- context [parse ?expr] => destruct (parse expr); [| reflexivity]
  end.
  cbn. rewrite Hreason. reflexivity.
Qed.

(** X3: a marker without [reason], a marker with [reason=None] (what
    [skip_crdb] passes by default) and a marker with an empty [reason] are
    bound alike, whatever the positional arguments, [parse] and
    [get_skip_message]. *)
Theorem check_crdb_version_no_reason
    {VersionCheck Version : Type}
    (parse : string -> result VersionCheck)
    (set_whose : VersionCheck -> string -> VersionCheck)
    (get_skip_message : VersionCheck -> option Version -> option string)
    (got : option Version) (positional : list string) :
  fix_crdb.check_crdb_version parse set_whose get_skip_message got
    {| fix_crdb.args := positional; fix_crdb.kwargs := {[ "reason" := None ]} |}
  = fix_crdb.check_crdb_version parse set_whose get_skip_message got
      {| fix_crdb.args := positional; fix_crdb.kwargs := ∅ |}
  ∧ fix_crdb.check_crdb_version parse set_whose get_skip_message got
      {| fix_crdb.args := positional; fix_crdb.kwargs := {[ "reason" := Some "" ]} |}
    = fix_crdb.check_crdb_version parse set_whose get_skip_message got
        {| fix_crdb.args := positional; fix_crdb.kwargs := ∅ |}.
Proof.
  split; apply check_crdb_version_same_reason;
    try (rewrite dom_singleton_L; reflexivity);
    try (rewrite dom_empty_L; apply empty_subseteq);
    unfold fix_crdb.kwargs_get; cbn [fix_crdb.kwargs];
    rewrite lookup_singleton_eq, lookup_empty; reflexivity.
Qed.

(** ** Markers built by [skip_crdb] *)

Lemma skip_mark_well_formed (reason : option string) :
  length (fix_crdb.args (fix_crdb.mark (fix_crdb.skip_mark reason))) ≤ 1
  ∧ dom (fix_crdb.kwargs (fix_crdb.mark (fix_crdb.skip_mark reason)))
    ⊆ {["reason"]}
  ∧ fix_crdb.version_expr (fix_crdb.mark (fix_crdb.skip_mark reason)) = "skip"
  ∧ fix_crdb.kwargs_get (fix_crdb.mark (fix_crdb.skip_mark reason)) "reason"
    = reason.
Proof.
  split; [cbn; lia |]. split; [cbn; rewrite dom_singleton_L; reflexivity |].
  split; [reflexivity |].
  unfold fix_crdb.kwargs_get. cbn. rewrite lookup_singleton_eq. reflexivity.
Qed.


Lemma skip_mark_message
    {VersionCheck Version : Type}
    (parse : string -> result VersionCheck)
    (set_whose : VersionCheck -> string -> VersionCheck)
    (get_skip_message : VersionCheck -> option Version -> option string)
    (got : option Version) (reason : option string)
    (pred : VersionCheck) (msg : string) :
  parse "skip" = Ok pred ->
  get_skip_message (set_whose pred "CockroachDB") got = Some msg ->
  msg ≠ "" ->
  fix_crdb.check_crdb_version parse set_whose get_skip_message got
    (fix_crdb.mark (fix_crdb.skip_mark reason))
  = Ok (Some match fix_crdb.crdb_skip_message reason with
             | "" => msg
             | String _ _ as enriched => msg +:+ ": " +:+ enriched
             end).
Proof.
  intros Hparse Hmsg Hne.
  destruct (skip_mark_well_formed reason) as (Hargs & Hkw & Hexpr & Hget).
  rewrite (check_crdb_version_parsed parse set_whose get_skip_message got _ pred
             Hargs Hkw); [| rewrite Hexpr; exact Hparse].
  rewrite Hmsg, Hget. destruct msg as [| c msg]; [contradiction |].
  destruct (fix_crdb.crdb_skip_message reason); reflexivity.
Qed.

(** X5: the messages of the three ready-made skips.  Each of them
    applies exactly one mark.  When the check gives a skip message on
    CockroachDB, a case built by [crdb_encoding] is skipped with that
    message followed by the reason and the link to ticket 35882;
    [time precision] and [standard_conforming_strings=off] are not reasons
    of the table, so a case built by [crdb_time_precision] or
    [crdb_scs_off] is skipped with the message followed by the bare
    reason, without a link. *)
Theorem crdb_ready_made_skips
    {A VersionCheck Version : Type}
    (parse : string -> result VersionCheck)
    (set_whose : VersionCheck -> string -> VersionCheck)
    (get_skip_message : VersionCheck -> option Version -> option string)
    (got : option Version) (values : list A)
    (pred : VersionCheck) (msg : string) :
  parse "skip" = Ok pred ->
  get_skip_message (set_whose pred "CockroachDB") got = Some msg ->
  msg ≠ "" ->
  Forall
    (fun d =>
       fix_crdb.check_crdb_version parse set_whose get_skip_message got
         (fix_crdb.mark d)
       = Ok (Some (msg +:+ ": encoding ("
                   +:+ "https://github.com/cockroachdb/cockroach/issues/35882"
                   +:+ ")")))
    (fix_crdb.marks (fix_crdb.crdb_encoding values))
  ∧ Forall
      (fun d =>
         fix_crdb.check_crdb_version parse set_whose get_skip_message got
           (fix_crdb.mark d)
         = Ok (Some (msg +:+ ": time precision")))
      (fix_crdb.marks (fix_crdb.crdb_time_precision values))
  ∧ Forall
      (fun d =>
         fix_crdb.check_crdb_version parse set_whose get_skip_message got
           (fix_crdb.mark d)
         = Ok (Some (msg +:+ ": standard_conforming_strings=off")))
      (fix_crdb.marks (fix_crdb.crdb_scs_off values))
  ∧ length (fix_crdb.marks (fix_crdb.crdb_encoding values)) = 1
  ∧ length (fix_crdb.marks (fix_crdb.crdb_time_precision values)) = 1
  ∧ length (fix_crdb.marks (fix_crdb.crdb_scs_off values)) = 1.
Proof.
  intros Hparse Hmsg Hne.
  split; [| split; [| split]];
    [ apply Forall_singleton;
      rewrite (skip_mark_message parse set_whose get_skip_message got _ pred msg
                 Hparse Hmsg Hne);
      reflexivity ..
    | repeat split ].
Qed.

Lemma crdb_ready_made_skips_witness :
  Forall
    (fun d =>
       fix_crdb.check_crdb_version VersionCheck.parse VersionCheck.set_whose
         (VersionCheck.get_skip_message true) (Some [22%N; 1%N])
         (fix_crdb.mark d)
       = Ok (Some ("not supported on CockroachDB matching this predicate"
                   +:+ ": time precision")))
    (fix_crdb.marks (fix_crdb.crdb_time_precision [1; 2; 3])).
Proof.
  refine (proj1 (proj2 (crdb_ready_made_skips
            VersionCheck.parse VersionCheck.set_whose
            (VersionCheck.get_skip_message true) (Some [22%N; 1%N]) [1; 2; 3]
            _ "not supported on CockroachDB matching this predicate" _ _ _))).
  - vm_compute. reflexivity.
  - vm_compute. reflexivity.
  - discriminate.
Defined.

(** ** The reason table and the enrichment *)

Lemma crdb_reasons_items_forallb
    (check : string * Z -> bool) (reason : string) (number : Z) :
  forallb check fix_crdb._crdb_reasons_items = true ->
  fix_crdb._crdb_reasons !! reason = Some number ->
  check (reason, number) = true.
Proof.
  intros Hall Hkey. apply crdb_reasons_lookup, list_elem_of_In in Hkey.
  exact (proj1 (forallb_forall _ _) Hall _ Hkey).
Qed.

(** No reason of the table holds an opening parenthesis. *)
Lemma crdb_reasons_keys_no_paren (reason : string) (number : Z) :
  fix_crdb._crdb_reasons !! reason = Some number ->
  all_chars (fun c => negb (Ascii.eqb c "(")) reason = true.
Proof.
  apply (crdb_reasons_items_forallb
           (fun kv => all_chars (fun c => negb (Ascii.eqb c "(")) kv.1)).
  vm_compute. reflexivity.
Qed.

(** X6: enriching is idempotent.  An enriched reason is not a reason of
    the table, so enriching it again returns it unchanged: no second link
    is added. *)
Theorem crdb_skip_message_idempotent (reason : option string) :
  fix_crdb.crdb_skip_message (Some (fix_crdb.crdb_skip_message reason))
  = fix_crdb.crdb_skip_message reason.
Proof.
  destruct reason as [reason |]; [| reflexivity].
  destruct (fix_crdb._crdb_reasons !! reason) as [number |] eqn:Hkey.
  - rewrite (crdb_skip_message_key reason number Hkey).
    apply crdb_skip_message_not_key.
    match goal with
    | |- ?table !! ?enriched = None =>
        destruct (table !! enriched) as [number' |] eqn:Hkey'; [| reflexivity]
    end.
    apply crdb_reasons_keys_no_paren in Hkey'.
    rewrite all_chars_app in Hkey'. apply andb_true_iff in Hkey' as [_ Hkey'].
    discriminate Hkey'.
  - rewrite (crdb_skip_message_not_key reason Hkey).
    apply crdb_skip_message_not_key, Hkey.
Qed.

(** X7: the link of a reason of the table.  Its ticket number is
    positive, and the enriched reason is the reason followed by the url
    of the tracker, which ends in a non-empty run of decimal digits,
    between parentheses. *)
Theorem crdb_skip_message_link (reason : string) (number : Z) :
  fix_crdb._crdb_reasons !! reason = Some number ->
  (0 < number)%Z
  ∧ ∃ digits : string,
      digits ≠ ""
      ∧ all_chars (fun c => bool_decide (is_Some (Ascii.is_nat c))) digits = true
      ∧ fix_crdb.crdb_skip_message (Some reason)
        = reason +:+ " (https://github.com/cockroachdb/cockroach/issues/"
          +:+ digits +:+ ")".
Proof.
  intros Hkey.
  pose proof (crdb_reasons_items_forallb
                (fun kv =>
                   bool_decide (0 < kv.2)%Z
                   && negb (String.eqb (pretty kv.2) "")
                   && all_chars (fun c => bool_decide (is_Some (Ascii.is_nat c)))
                        (pretty kv.2))
                reason number) as Hcheck.
  cbn [fst snd] in Hcheck.
  rewrite !andb_true_iff, negb_true_iff, String.eqb_neq in Hcheck.
  destruct Hcheck as [[Hpos Hne] Hdigits]; [vm_compute; reflexivity | exact Hkey |].
  split; [exact (proj1 (bool_decide_eq_true _) Hpos) |].
  exists (pretty number). split; [exact Hne |]. split; [exact Hdigits |].
  rewrite (crdb_skip_message_key reason number Hkey). reflexivity.
Qed.

Lemma crdb_skip_message_link_witness :
  fix_crdb._crdb_reasons !! "copy canceled" = Some 81559%Z
  ∧ (0 < 81559)%Z
  ∧ ∃ digits : string,
      digits ≠ ""
      ∧ all_chars (fun c => bool_decide (is_Some (Ascii.is_nat c))) digits = true
      ∧ fix_crdb.crdb_skip_message (Some "copy canceled")
        = "copy canceled" +:+ " (https://github.com/cockroachdb/cockroach/issues/"
          +:+ digits +:+ ")".
Proof.
  split; [vm_compute; reflexivity |].
  apply (crdb_skip_message_link "copy canceled"). vm_compute. reflexivity.
Defined.

(** X8: the table holds exactly the entries of its literal.  No reason is
    listed twice, so a reason has a ticket in the table exactly when the
    pair is listed, the table has thirty entries, and no reason is the
    empty string. *)
Theorem crdb_reasons_table (reason : string) (number : Z) :
  (fix_crdb._crdb_reasons !! reason = Some number
   ↔ (reason, number) ∈ fix_crdb._crdb_reasons_items)
  ∧ size fix_crdb._crdb_reasons = 30
  ∧ NoDup (fix_crdb._crdb_reasons_items.*1)
  ∧ "" ∉ dom fix_crdb._crdb_reasons.
Proof.
  split; [apply crdb_reasons_lookup |].
  split.
  { unfold fix_crdb._crdb_reasons.
    rewrite (map_size_list_to_map _ crdb_reasons_items_NoDup). reflexivity. }
  split; [exact crdb_reasons_items_NoDup |].
  apply not_elem_of_dom. exact crdb_reasons_empty_key.
Qed.

(** ** The format tables *)

(** X9: the two tables are converse relations: [_py2pg] sends [f] to [g]
    exactly when [_pg2py] sends [g] to [f], so neither table has an entry
    the other lacks. *)
Theorem PyFormat_tables_converse (f : PyFormat.t) (g : pq.Format) :
  PyFormat._py2pg !! f = Some g ↔ PyFormat._pg2py !! g = Some f.
Proof.
  destruct f, g; split; intros Hentry;
    first [discriminate Hentry | reflexivity].
Qed.

(** X10: [as_pq] fails on [AUTO] only, and with [KeyError] only; [from_pq]
    never fails on a wire format, never returns [AUTO], and what it
    returns is sent back by [as_pq]. *)
Theorem PyFormat_conversions_domain (f : PyFormat.t) (g : pq.Format) :
  (∀ e : exn, PyFormat.as_pq f = Raise e ↔ f = PyFormat.AUTO ∧ e = KeyError)
  ∧ ((∃ g' : pq.Format, PyFormat.as_pq f = Ok g') ↔ f ≠ PyFormat.AUTO)
  ∧ (∃ f' : PyFormat.t,
       PyFormat.from_pq g = Ok f'
       ∧ f' ≠ PyFormat.AUTO
       ∧ PyFormat.as_pq f' = Ok g).
Proof.
  split; [| split].
  - intros e. destruct f; split.
    + intros [= <-]. split; reflexivity.
    + intros [_ ->]. reflexivity.
    + discriminate.
    + intros [Hf _]. discriminate Hf.
    + discriminate.
    + intros [Hf _]. discriminate Hf.
  - destruct f; split.
    + intros [g' Hg']. discriminate Hg'.
    + intros Hf. contradiction.
    + intros _. discriminate.
    + intros _. exists pq.TEXT. reflexivity.
    + intros _. discriminate.
    + intros _. exists pq.BINARY. reflexivity.
  - destruct g.
    + exists PyFormat.TEXT. split; [reflexivity |]. split; [discriminate | reflexivity].
    + exists PyFormat.BINARY. split; [reflexivity |]. split; [discriminate | reflexivity].
Qed.

(** X11: the members of [PyFormat] have distinct values, each the single
    letter of its placeholder: no member is an alias of another. *)
Theorem PyFormat_value_distinct (f1 f2 : PyFormat.t) :
  (PyFormat.value f1 = PyFormat.value f2 ↔ f1 = f2)
  ∧ String.length (PyFormat.value f1) = 1.
Proof.
  split; [| destruct f1; reflexivity].
  split; [| intros ->; reflexivity].
  destruct f1, f2; intros Hvalue; first [reflexivity | discriminate Hvalue].
Qed.
